(** * elysia-supabase: the Supabase authentication guards for Elysia

    A shallow embedding of [src/supabase.ts] (the positional form of the
    guards) and of its later revision (the form taking one object argument),
    with the properties of the request-time check sequence, of the
    configuration fallback and of the client-options merge. *)

From Stdlib Require Import Ascii String ZArith List.
From stdpp Require Import gmap strings list fin_maps pretty.

Set Warnings "-register-all".

Local Open Scope string_scope.
Local Open Scope Z_scope.

(** ** JavaScript values and objects *)

(** The values that occur in a [SupabaseClientOptions] object.  An object
    is a finite map from property names to values; [JFun] stands for a
    function value (such as [global.fetch]), identified by a tag. *)
Inductive jsval : Type :=
  | JNull
  | JBool (b : bool)
  | JNum (n : Z)
  | JStr (s : string)
  | JFun (tag : nat)
  | JObj (props : gmap string jsval).

Abbreviation obj := (gmap string jsval).

(** Decimal rendering of an index, the property names of a spread string. *)
Definition index_key (i : nat) : string := pretty (Z.of_nat i).

Fixpoint string_props (i : nat) (s : string) : obj :=
  match s with
  | EmptyString => ∅
  | String c rest => <[index_key i := JStr (String c EmptyString)]> (string_props (S i) rest)
  end.

(** [{...v}]: the own enumerable properties of [v].  [None] is
    [undefined]; [undefined], [null], booleans, numbers and functions
    contribute nothing, a string contributes its characters by index. *)
Definition spread (v : option jsval) : obj :=
  match v with
  | Some (JObj props) => props
  | Some (JStr s) => string_props 0 s
  | _ => ∅
  end.

(** [options?.k] for [options] an object or [undefined]. *)
Definition opt_get (options : option obj) (k : string) : option jsval :=
  match options with
  | None => None
  | Some o => o !! k
  end.

(** ** The request and its headers *)

Definition ascii_lower (c : ascii) : ascii :=
  let n := nat_of_ascii c in
  if (Nat.leb 65 n && Nat.leb n 90)%bool then ascii_of_nat (n + 32) else c.

Fixpoint lowercase (s : string) : string :=
  match s with
  | EmptyString => EmptyString
  | String c rest => String (ascii_lower c) (lowercase rest)
  end.

Definition same_header_name (a b : string) : bool :=
  String.eqb (lowercase a) (lowercase b).

(** A request, as far as the guards look at it: its header list. *)
Record Request : Type := { headers : list (string * string) }.

(** [request.headers.get(name)]: [null] ([None]) when no header has that
    name (compared without regard to case), otherwise the values of all
    headers of that name, in order, joined by a comma and a space. *)
Fixpoint join_values (vs : list string) : string :=
  match vs with
  | [] => EmptyString
  | [v] => v
  | v :: rest => v ++ ", " ++ join_values rest
  end.

Definition Headers_get (hs : list (string * string)) (name : string) : option string :=
  match List.filter (fun h => same_header_name (fst h) name) hs with
  | [] => None
  | found => Some (join_values (List.map snd found))
  end.

(** [!v] for a value of type [string | undefined] or [string | null]:
    true for [undefined]/[null] and for the empty string. *)
Definition js_not (v : option string) : bool :=
  match v with
  | None => true
  | Some EmptyString => true
  | Some (String _ _) => false
  end.

(** The narrowing done by [if (!v) return ...]: past the check, [v] is a
    non-empty string. *)
Definition narrowed (v : option string) : option string :=
  if js_not v then None else v.

(** ** The backend client and the world the guards run in *)

Record SupabaseClient : Type := {
  supabaseUrl : string;
  supabaseKey : string;
  client_options : obj
}.

Record User : Type := { user_id : string; email : option string }.

Record AuthError : Type := { error_message : string; error_status : option Z }.

(** The result of [supabase.auth.getUser()]: [data.user] ([None] is
    [null]) and [error] ([None] is [null]). *)
Record UserResponse : Type := {
  data_user : option User;
  error : option AuthError
}.

(** [process.env], as declared for the guards. *)
Record Env : Type := {
  SUPABASE_URL : option string;
  SUPABASE_ANON_KEY : option string
}.

(** Calls made to the Supabase library, in order. *)
Inductive Call : Type :=
  | CreateClient (url key : string) (options : obj)
  | GetUser (client : SupabaseClient) (resp : UserResponse).

(** The world: the process environment, the authentication server (what
    [getUser] answers for a client) and the calls made so far. *)
Record World : Type := {
  process_env : Env;
  auth_server : SupabaseClient -> UserResponse;
  calls : list Call
}.

Definition record_call (c : Call) (w : World) : World :=
  {| process_env := process_env w;
     auth_server := auth_server w;
     calls := calls w ++ [c] |}.

Definition set_env (e : Env) (w : World) : World :=
  {| process_env := e; auth_server := auth_server w; calls := calls w |}.

(** State monad over the world. *)
Definition M (A : Type) : Type := World -> A * World.

Definition ret {A} (a : A) : M A := fun w => (a, w).

Definition bind {A B} (m : M A) (k : A -> M B) : M B :=
  fun w => let (a, w') := m w in k a w'.

Notation "'do' x <- m ; k" := (bind m (fun x => k))
  (at level 10, x name, m at level 100, k at level 200).

Definition read_env : M Env := fun w => (process_env w, w).

(** [createClient(url, key, options)]: the factory of supabase-js, taken
    as it is used here, after the checks: it returns the client made of
    its three arguments. *)
Definition createClient (url key : string) (options : obj) : M SupabaseClient :=
  fun w =>
    ({| supabaseUrl := url; supabaseKey := key; client_options := options |},
     record_call (CreateClient url key options) w).

(** [await client.auth.getUser()]. *)
Definition auth_getUser (client : SupabaseClient) : M UserResponse :=
  fun w =>
    let resp := auth_server w client in
    (resp, record_call (GetUser client resp) w).

(** ** The guards *)

(** What the [resolve] hook leaves for the request: an error response
    (the request is rejected with that status and body) or the context
    extension [{ supabase, user }]. *)
Inductive Outcome : Type :=
  | ErrorResponse (status : Z) (message : option string)
  | Resolved (supabase : SupabaseClient) (user : option User).

(** [error(status, message)] of the handler's context; [error(401)] has
    no message. *)
Definition error_response (status : Z) (message : option string) : Outcome :=
  ErrorResponse status message.

(** The options given to [createClient]:
    [{ ...options, global: { ...options?.global, headers: { Authorization } } }].
    A property written after a spread replaces the spread's property of
    the same name; [options] is an object or [undefined]. *)
Definition merged_options (options : option obj) (Authorization : string) : obj :=
  <["global" :=
      JObj (<["headers" := JObj {["Authorization" := JStr Authorization]}]>
              (spread (opt_get options "global")))]>
    (spread (JObj <$> options)).

Definition Handler : Type := Request -> M Outcome.

(** The [resolve] hook of [supabase], with the values its closure holds.
    Each [if (!x) return error(...)] is a match on [narrowed x]. *)
Definition supabase_resolve
    (supabase_url supabase_anon_key : option string) (options : option obj)
    : Handler := fun request =>
  match narrowed supabase_url with
  | None => ret (error_response 500 (Some "SUPABASE_URL is not set"))
  | Some url =>
  match narrowed supabase_anon_key with
  | None => ret (error_response 500 (Some "SUPABASE_ANON_KEY is not set"))
  | Some key =>
  match narrowed (Headers_get (headers request) "Authorization") with
  | None => ret (error_response 401 (Some "Authorization header is missing"))
  | Some Authorization =>
      do supabase <- createClient url key (merged_options options Authorization);
      do resp <- auth_getUser supabase;
      match error resp with
      | Some _ => ret (error_response 401 None)
      | None => ret (Resolved supabase (data_user resp))
      end
  end end end.

(** The [resolve] hook of [anon_supabase]. *)
Definition anon_supabase_resolve
    (supabase_url supabase_anon_key : option string) (options : option obj)
    : Handler := fun request =>
  match narrowed supabase_url with
  | None => ret (error_response 500 (Some "SUPABASE_URL is not set"))
  | Some url =>
  match narrowed supabase_anon_key with
  | None => ret (error_response 500 (Some "SUPABASE_ANON_KEY is not set"))
  | Some key =>
  match narrowed (Headers_get (headers request) "Authorization") with
  | None => ret (error_response 401 (Some "Authorization header is missing"))
  | Some Authorization =>
      do supabase <- createClient url key (merged_options options Authorization);
      do resp <- auth_getUser supabase;
      ret (Resolved supabase (data_user resp))
  end end end.

(** The argument object of the guards. *)
Record GuardArgs : Type := {
  supabase_url : option string;
  supabase_anon_key : option string;
  options : option obj
}.

(** [{}] *)
Definition no_args : GuardArgs :=
  {| supabase_url := None; supabase_anon_key := None; options := None |}.

(** [process.env.SUPABASE_URL] and [process.env.SUPABASE_ANON_KEY] as
    default values. *)
Definition env_SUPABASE_URL : M (option string) :=
  do env <- read_env; ret (SUPABASE_URL env).

Definition env_SUPABASE_ANON_KEY : M (option string) :=
  do env <- read_env; ret (SUPABASE_ANON_KEY env).

(** A parameter or destructured property with a default, [p = d]: when
    the value given is [undefined] ([None]) the default is evaluated, at
    the call, and taken; it may itself be [undefined]. *)
Definition default_value (p : option string) (d : M (option string)) : M (option string) :=
  match p with
  | Some v => ret (Some v)
  | None => d
  end.

(** [supabase({ supabase_url = process.env.SUPABASE_URL,
                supabase_anon_key = process.env.SUPABASE_ANON_KEY,
                options } = {})]: the plugin, that is its [resolve] hook. *)
Definition supabase (arg : option GuardArgs) : M Handler :=
  let arg := default no_args arg in
  do url <- default_value (supabase_url arg) env_SUPABASE_URL;
  do key <- default_value (supabase_anon_key arg) env_SUPABASE_ANON_KEY;
  ret (supabase_resolve url key (options arg)).

Definition anon_supabase (arg : option GuardArgs) : M Handler :=
  let arg := default no_args arg in
  do url <- default_value (supabase_url arg) env_SUPABASE_URL;
  do key <- default_value (supabase_anon_key arg) env_SUPABASE_ANON_KEY;
  ret (anon_supabase_resolve url key (options arg)).

(** The guards of [src/supabase.ts], with positional parameters
    [(supabase_url = process.env.SUPABASE_URL,
      supabase_anon_key = process.env.SUPABASE_ANON_KEY, options?)]. *)
Module Positional.

Definition supabase (supabase_url supabase_anon_key : option string)
    (options : option obj) : M Handler :=
  do url <- default_value supabase_url env_SUPABASE_URL;
  do key <- default_value supabase_anon_key env_SUPABASE_ANON_KEY;
  ret (supabase_resolve url key options).

Definition anon_supabase (supabase_url supabase_anon_key : option string)
    (options : option obj) : M Handler :=
  do url <- default_value supabase_url env_SUPABASE_URL;
  do key <- default_value supabase_anon_key env_SUPABASE_ANON_KEY;
  ret (anon_supabase_resolve url key options).

End Positional.

(** ** Vocabulary for the statements *)

(** The two guards: [supabase] is the strict one, [anon_supabase] the
    permissive one. *)
Inductive Variant : Type := Strict | Permissive.

Definition guard (v : Variant) : option GuardArgs -> M Handler :=
  match v with
  | Strict => supabase
  | Permissive => anon_supabase
  end.

Definition resolve_hook (v : Variant)
    : option string -> option string -> option obj -> Handler :=
  match v with
  | Strict => supabase_resolve
  | Permissive => anon_supabase_resolve
  end.

(** The guard is constructed from [arg] in the world [w0]; later, in the
    world [w], it handles [request]. *)
Definition handle (v : Variant) (arg : option GuardArgs) (w0 : World)
    (request : Request) (w : World) : Outcome * World :=
  (guard v arg w0).1 request w.

(** The calls made between two worlds. *)
Definition new_calls (w w' : World) : list Call :=
  drop (length (calls w)) (calls w').

(** Follows the spec's words (its design note on configuration):
    [resolve(explicit, env)] is the explicit value when there is one and
    the environment's value otherwise. *)
Definition resolve (explicit env : option string) : option string :=
  match explicit with
  | Some v => Some v
  | None => env
  end.

(** The endpoint and access key of a guard constructed from [arg] when
    the environment is [env], by the spec's [resolve]. *)
Definition endpoint_of (arg : option GuardArgs) (env : Env) : option string :=
  resolve (supabase_url (default no_args arg)) (SUPABASE_URL env).

Definition access_key_of (arg : option GuardArgs) (env : Env) : option string :=
  resolve (supabase_anon_key (default no_args arg)) (SUPABASE_ANON_KEY env).

Definition options_of (arg : option GuardArgs) : option obj :=
  options (default no_args arg).

(** Follows the spec's words: the three checks, in the order of its
    check sequence, and the table of rejections. *)
Inductive GuardCheck : Type := EndpointCheck | AccessKeyCheck | AuthorizationCheck.

Definition check_sequence : list GuardCheck :=
  [EndpointCheck; AccessKeyCheck; AuthorizationCheck].

(** A check fails when its value is unset; the guards take the empty
    string for unset as well. *)
Definition check_fails (endpoint key authorization : option string) (c : GuardCheck) : bool :=
  match c with
  | EndpointCheck => js_not endpoint
  | AccessKeyCheck => js_not key
  | AuthorizationCheck => js_not authorization
  end.

Definition first_failure (endpoint key authorization : option string) : option GuardCheck :=
  List.find (check_fails endpoint key authorization) check_sequence.

Definition rejection (c : GuardCheck) : Z * string :=
  match c with
  | EndpointCheck => (500, "SUPABASE_URL is not set")
  | AccessKeyCheck => (500, "SUPABASE_ANON_KEY is not set")
  | AuthorizationCheck => (401, "Authorization header is missing")
  end.

(** The client a guard builds for a request whose credential is
    [authorization]. *)
Definition scoped_client (url key : string) (options : option obj)
    (authorization : string) : SupabaseClient :=
  {| supabaseUrl := url; supabaseKey := key;
     client_options := merged_options options authorization |}.

(** ** Concrete configurations, requests and worlds *)

Module Sample.

Definition env_unset : Env :=
  {| SUPABASE_URL := None; SUPABASE_ANON_KEY := None |}.

Definition env_set : Env :=
  {| SUPABASE_URL := Some "https://env.test";
     SUPABASE_ANON_KEY := Some "env-anon-key" |}.

(** Only the access key is set in the environment. *)
Definition env_key_only : Env :=
  {| SUPABASE_URL := None; SUPABASE_ANON_KEY := Some "env-anon-key" |}.

(** A server that knows the user behind every credential. *)
Definition server_accepting : SupabaseClient -> UserResponse :=
  fun _ =>
    {| data_user := Some {| user_id := "u1"; email := Some "a@b.com" |};
       error := None |}.

(** A server that rejects every credential. *)
Definition server_rejecting : SupabaseClient -> UserResponse :=
  fun _ =>
    {| data_user := None;
       error := Some {| error_message := "invalid JWT"; error_status := Some 403 |} |}.

Definition world (env : Env) (server : SupabaseClient -> UserResponse) : World :=
  {| process_env := env; auth_server := server; calls := [] |}.

(** [{ supabase_url: "https://x.test", supabase_anon_key: "anon-key" }] *)
Definition args : GuardArgs :=
  {| supabase_url := Some "https://x.test";
     supabase_anon_key := Some "anon-key";
     options := None |}.

(** [{ db: { schema: "public" },
       global: { fetch, headers: { "X-Client-Info": "my-app",
                                   Authorization: "Bearer construction" } } }] *)
Definition custom_headers : obj :=
  {[ "X-Client-Info" := JStr "my-app";
     "Authorization" := JStr "Bearer construction" ]}.

Definition custom_global : obj :=
  {[ "fetch" := JFun 0; "headers" := JObj custom_headers ]}.

Definition custom_options : obj :=
  {[ "db" := JObj {[ "schema" := JStr "public" ]};
     "global" := JObj custom_global ]}.

Definition args_with_options : GuardArgs :=
  {| supabase_url := Some "https://x.test";
     supabase_anon_key := Some "anon-key";
     options := Some custom_options |}.

(** Both values supplied as the empty string. *)
Definition args_empty : GuardArgs :=
  {| supabase_url := Some ""; supabase_anon_key := Some ""; options := None |}.

(** Only the access key supplied, as the empty string. *)
Definition args_empty_key : GuardArgs :=
  {| supabase_url := None; supabase_anon_key := Some ""; options := None |}.

Definition request_with (authorization : string) : Request :=
  {| headers := [("Authorization", authorization)] |}.

Definition request_bare : Request := {| headers := [] |}.

End Sample.

(** ** Basic facts *)

Lemma js_not_false (v : option string) :
  js_not v = false <-> exists s, v = Some s /\ s <> "".
Proof.
  split.
  - destruct v as [[|c s]|]; simpl; try discriminate.
    intros _. exists (String c s). split; [reflexivity | discriminate].
  - intros (s & -> & Hs). destruct s; [contradiction | reflexivity].
Qed.

Lemma narrowed_Some (v : option string) (s : string) :
  v = Some s -> s <> "" -> narrowed v = Some s.
Proof.
  intros -> Hs. destruct s; [contradiction | reflexivity].
Qed.

Lemma narrowed_None (v : option string) :
  js_not v = true -> narrowed v = None.
Proof. unfold narrowed. intros ->. reflexivity. Qed.

Lemma narrowed_inv (v : option string) (s : string) :
  narrowed v = Some s -> v = Some s /\ s <> "".
Proof.
  unfold narrowed. destruct v as [[|c r]|]; simpl; try discriminate.
  intros [= <-]. split; [reflexivity | discriminate].
Qed.

Lemma new_calls_refl (w : World) : new_calls w w = [].
Proof. unfold new_calls. apply drop_all. Qed.

Lemma new_calls_two (w : World) (c1 c2 : Call) :
  new_calls w (record_call c2 (record_call c1 w)) = [c1; c2].
Proof.
  unfold new_calls. simpl. rewrite <- app_assoc. apply drop_app_length.
Qed.

(** Construction reads the environment of its own world, leaves the
    world as it is, and yields the hook closed over the resolved values. *)
Lemma guard_constructs (v : Variant) (arg : option GuardArgs) (w0 : World) :
  guard v arg w0 =
  (resolve_hook v (endpoint_of arg (process_env w0))
     (access_key_of arg (process_env w0)) (options_of arg), w0).
Proof.
  destruct v, arg as [[[u|] [k|] o]|]; reflexivity.
Qed.

Lemma handle_hook (v : Variant) (arg : option GuardArgs) (w0 : World)
    (request : Request) (w : World) :
  handle v arg w0 request w =
  resolve_hook v (endpoint_of arg (process_env w0))
    (access_key_of arg (process_env w0)) (options_of arg) request w.
Proof. unfold handle. rewrite guard_constructs. reflexivity. Qed.

(** The positional guards of [src/supabase.ts] are the guards above,
    applied to the object made of their three arguments. *)
Lemma positional_supabase (u k : option string) (o : option obj) :
  Positional.supabase u k o =
  supabase (Some {| supabase_url := u; supabase_anon_key := k; options := o |}).
Proof. reflexivity. Qed.

Lemma positional_anon_supabase (u k : option string) (o : option obj) :
  Positional.anon_supabase u k o =
  anon_supabase (Some {| supabase_url := u; supabase_anon_key := k; options := o |}).
Proof. reflexivity. Qed.

(** The hook, case by case. *)
Section Hook.
Variables (v : Variant) (url key : option string) (o : option obj).
Variables (request : Request) (w : World).

Lemma hook_endpoint_unset :
  js_not url = true ->
  resolve_hook v url key o request w =
  (ErrorResponse 500 (Some "SUPABASE_URL is not set"), w).
Proof.
  intros H. destruct v; unfold resolve_hook, supabase_resolve, anon_supabase_resolve;
    rewrite (narrowed_None _ H); reflexivity.
Qed.

Lemma hook_key_unset :
  js_not url = false -> js_not key = true ->
  resolve_hook v url key o request w =
  (ErrorResponse 500 (Some "SUPABASE_ANON_KEY is not set"), w).
Proof.
  intros (u & -> & Hu)%js_not_false H.
  destruct v; unfold resolve_hook, supabase_resolve, anon_supabase_resolve;
    rewrite (narrowed_Some _ u eq_refl Hu), (narrowed_None _ H); reflexivity.
Qed.

Lemma hook_header_missing :
  js_not url = false -> js_not key = false ->
  js_not (Headers_get (headers request) "Authorization") = true ->
  resolve_hook v url key o request w =
  (ErrorResponse 401 (Some "Authorization header is missing"), w).
Proof.
  intros (u & -> & Hu)%js_not_false (k & -> & Hk)%js_not_false H.
  destruct v; unfold resolve_hook, supabase_resolve, anon_supabase_resolve;
    rewrite (narrowed_Some _ u eq_refl Hu), (narrowed_Some _ k eq_refl Hk),
      (narrowed_None _ H); reflexivity.
Qed.

(** Past the three checks both guards create the client and ask for
    the user; only the strict one looks at [resp.error]. *)
Lemma hook_accepts (u k a : string) :
  url = Some u -> u <> "" -> key = Some k -> k <> "" ->
  Headers_get (headers request) "Authorization" = Some a -> a <> "" ->
  let client := scoped_client u k o a in
  let resp := auth_server w client in
  resolve_hook v url key o request w =
  (match v, error resp with
   | Strict, Some _ => ErrorResponse 401 None
   | _, _ => Resolved client (data_user resp)
   end,
   record_call (GetUser client resp)
     (record_call (CreateClient u k (merged_options o a)) w)).
Proof.
  intros -> Hu -> Hk Ha Ha' client resp.
  destruct v; unfold resolve_hook, supabase_resolve, anon_supabase_resolve;
    rewrite (narrowed_Some _ u eq_refl Hu), (narrowed_Some _ k eq_refl Hk),
      (narrowed_Some _ a Ha Ha'); subst resp client;
    unfold bind, createClient, auth_getUser, ret, scoped_client; simpl;
    try destruct (error (auth_server w _)); reflexivity.
Qed.

(** A run that made any call passed the three checks. *)
Lemma hook_calls_inv (c : Call) :
  c ∈ new_calls w (resolve_hook v url key o request w).2 ->
  exists u k a,
    url = Some u /\ u <> "" /\ key = Some k /\ k <> "" /\
    Headers_get (headers request) "Authorization" = Some a /\ a <> "".
Proof.
  intros Hc.
  destruct (js_not url) eqn:Hu.
  { rewrite hook_endpoint_unset in Hc by done. simpl in Hc.
    rewrite new_calls_refl in Hc. by apply elem_of_nil in Hc. }
  destruct (js_not key) eqn:Hk.
  { rewrite hook_key_unset in Hc by done. simpl in Hc.
    rewrite new_calls_refl in Hc. by apply elem_of_nil in Hc. }
  destruct (js_not (Headers_get (headers request) "Authorization")) eqn:Ha.
  { rewrite hook_header_missing in Hc by done. simpl in Hc.
    rewrite new_calls_refl in Hc. by apply elem_of_nil in Hc. }
  apply js_not_false in Hu as (u & -> & Hu).
  apply js_not_false in Hk as (k & -> & Hk).
  apply js_not_false in Ha as (a & Ha & Ha').
  exists u, k, a. done.
Qed.
End Hook.

(** ** The check sequence *)

(** C1.  For either guard, whatever the configuration and the request:
    when the first check to fail, in the order endpoint, access key,
    Authorization header, is [c], the request is rejected with exactly the
    status and message the table gives for [c], and nothing further is
    done (the world is left as it was: no client is created, no lookup is
    made).  An unset endpoint gives 500 "SUPABASE_URL is not set", an
    unset access key 500 "SUPABASE_ANON_KEY is not set", an absent header
    401 "Authorization header is missing". *)
Theorem checks_in_order (v : Variant) (arg : option GuardArgs) (w0 : World)
    (request : Request) (w : World) (c : GuardCheck) :
  first_failure (endpoint_of arg (process_env w0))
    (access_key_of arg (process_env w0))
    (Headers_get (headers request) "Authorization") = Some c ->
  handle v arg w0 request w =
  (ErrorResponse (rejection c).1 (Some (rejection c).2), w).
Proof.
  rewrite handle_hook. unfold first_failure, check_sequence. simpl.
  destruct (js_not (endpoint_of _ _)) eqn:Hu.
  { intros [= <-]. by apply hook_endpoint_unset. }
  destruct (js_not (access_key_of _ _)) eqn:Hk.
  { intros [= <-]. by apply hook_key_unset. }
  destruct (js_not (Headers_get _ _)) eqn:Ha; [|discriminate].
  intros [= <-]. by apply hook_header_missing.
Qed.

(** With neither endpoint nor key, and no header either, the endpoint
    error is the one reported. *)
Lemma checks_in_order_witness :
  handle Strict None (Sample.world Sample.env_unset Sample.server_accepting)
    Sample.request_bare (Sample.world Sample.env_unset Sample.server_accepting) =
  (ErrorResponse 500 (Some "SUPABASE_URL is not set"),
   Sample.world Sample.env_unset Sample.server_accepting).
Proof.
  apply (checks_in_order Strict None
           (Sample.world Sample.env_unset Sample.server_accepting)
           Sample.request_bare
           (Sample.world Sample.env_unset Sample.server_accepting)
           EndpointCheck).
  reflexivity.
Defined.

(** The table, entry by entry, in terms of the values themselves. *)
Lemma rejection_cases (v : Variant) (arg : option GuardArgs) (w0 : World)
    (request : Request) (w : World) :
  let endpoint := endpoint_of arg (process_env w0) in
  let key := access_key_of arg (process_env w0) in
  let authorization := Headers_get (headers request) "Authorization" in
  (endpoint = None ->
   handle v arg w0 request w =
   (ErrorResponse 500 (Some "SUPABASE_URL is not set"), w)) /\
  (js_not endpoint = false -> key = None ->
   handle v arg w0 request w =
   (ErrorResponse 500 (Some "SUPABASE_ANON_KEY is not set"), w)) /\
  (js_not endpoint = false -> js_not key = false -> authorization = None ->
   handle v arg w0 request w =
   (ErrorResponse 401 (Some "Authorization header is missing"), w)).
Proof.
  intros endpoint key authorization. rewrite handle_hook.
  fold endpoint key. split; [|split].
  - intros H. apply hook_endpoint_unset. by rewrite H.
  - intros Hu H. apply hook_key_unset; [done | by rewrite H].
  - intros Hu Hk H. apply hook_header_missing; [done | done |].
    fold authorization. by rewrite H.
Qed.

(** ** What happens past the checks *)

(** The request passed the three checks: the client is created with the
    merged options, the user is looked up once, and the outcome is as
    [hook_accepts] says. *)
Lemma handle_accepts (v : Variant) (arg : option GuardArgs) (w0 : World)
    (request : Request) (w : World) (u k a : string) :
  endpoint_of arg (process_env w0) = Some u -> u <> "" ->
  access_key_of arg (process_env w0) = Some k -> k <> "" ->
  Headers_get (headers request) "Authorization" = Some a -> a <> "" ->
  let client := scoped_client u k (options_of arg) a in
  let resp := auth_server w client in
  handle v arg w0 request w =
  (match v, error resp with
   | Strict, Some _ => ErrorResponse 401 None
   | _, _ => Resolved client (data_user resp)
   end,
   record_call (GetUser client resp)
     (record_call (CreateClient u k (merged_options (options_of arg) a)) w)).
Proof.
  intros Hu Hu' Hk Hk' Ha Ha'. rewrite handle_hook.
  by apply hook_accepts.
Qed.

(** Whenever the strict guard's lookup was called and came back with an
    error, the request is rejected with 401 and no message. *)
Lemma lookup_error_rejects (arg : option GuardArgs) (w0 : World)
    (request : Request) (w : World) (client : SupabaseClient)
    (resp : UserResponse) (err : AuthError) :
  GetUser client resp ∈ new_calls w (handle Strict arg w0 request w).2 ->
  error resp = Some err ->
  (handle Strict arg w0 request w).1 = ErrorResponse 401 None.
Proof.
  intros Hin Herr.
  assert (Hin' := Hin). rewrite handle_hook in Hin'.
  apply hook_calls_inv in Hin' as (u & k & a & Hu & Hu' & Hk & Hk' & Ha & Ha').
  rewrite (handle_accepts Strict arg w0 request w u k a) in Hin |- * by done.
  simpl in Hin. rewrite new_calls_two in Hin.
  apply elem_of_cons in Hin as [Heq | Hin].
  { discriminate. }
  apply list_elem_of_singleton in Hin. injection Hin as -> ->.
  simpl. by rewrite Herr.
Qed.

(** C2.  Strict guard, endpoint and access key resolved, Authorization
    header present: if the identity lookup made for the request reports
    an error, the request is rejected with status 401 and no message,
    and no [{ supabase, user }] extension is produced.  (The lookup
    "reports an error" when the run of the guard contains the call
    [getUser] with a response whose [error] is set.) *)
Theorem strict_rejects_on_lookup_error (arg : option GuardArgs) (w0 : World)
    (request : Request) (w : World) (u k a : string)
    (client : SupabaseClient) (resp : UserResponse) (err : AuthError) :
  endpoint_of arg (process_env w0) = Some u ->
  access_key_of arg (process_env w0) = Some k ->
  Headers_get (headers request) "Authorization" = Some a ->
  GetUser client resp ∈ new_calls w (handle Strict arg w0 request w).2 ->
  error resp = Some err ->
  (handle Strict arg w0 request w).1 = ErrorResponse 401 None /\
  (forall c usr, (handle Strict arg w0 request w).1 <> Resolved c usr).
Proof.
  intros _ _ _ Hin Herr.
  rewrite (lookup_error_rejects arg w0 request w client resp err Hin Herr).
  split; [reflexivity | discriminate].
Qed.

(** A rejecting server, a configured guard and a credential: 401 without
    a message. *)
Lemma strict_rejects_on_lookup_error_witness :
  (handle Strict (Some Sample.args)
     (Sample.world Sample.env_unset Sample.server_rejecting)
     (Sample.request_with "Bearer bad-token")
     (Sample.world Sample.env_unset Sample.server_rejecting)).1
  = ErrorResponse 401 None.
Proof.
  refine (proj1 (strict_rejects_on_lookup_error (Some Sample.args)
    (Sample.world Sample.env_unset Sample.server_rejecting)
    (Sample.request_with "Bearer bad-token")
    (Sample.world Sample.env_unset Sample.server_rejecting)
    "https://x.test" "anon-key" "Bearer bad-token"
    (scoped_client "https://x.test" "anon-key" None "Bearer bad-token")
    (Sample.server_rejecting
       (scoped_client "https://x.test" "anon-key" None "Bearer bad-token"))
    {| error_message := "invalid JWT"; error_status := Some 403 |}
    eq_refl eq_refl eq_refl _ eq_refl)).
  apply list_elem_of_lookup. exists 1%nat. reflexivity.
Defined.

(** Under the givens of C2 with a non-empty credential the lookup is
    made, on the client built for this request, so that a server error
    for that client is an error reported by the lookup. *)
Lemma strict_lookup_made (arg : option GuardArgs) (w0 : World)
    (request : Request) (w : World) (u k a : string) :
  endpoint_of arg (process_env w0) = Some u -> u <> "" ->
  access_key_of arg (process_env w0) = Some k -> k <> "" ->
  Headers_get (headers request) "Authorization" = Some a -> a <> "" ->
  let client := scoped_client u k (options_of arg) a in
  new_calls w (handle Strict arg w0 request w).2 =
  [CreateClient u k (merged_options (options_of arg) a);
   GetUser client (auth_server w client)].
Proof.
  intros Hu Hu' Hk Hk' Ha Ha' client.
  rewrite (handle_accepts Strict arg w0 request w u k a) by done.
  simpl. apply new_calls_two.
Qed.

(** ** The permissive guard *)

(** C3, as stated, fails: the permissive guard does reject a request
    whose Authorization header is present when its value is the empty
    string, with the configuration resolved. *)
Lemma permissive_rejects_empty_authorization :
  endpoint_of (Some Sample.args) Sample.env_unset = Some "https://x.test" /\
  access_key_of (Some Sample.args) Sample.env_unset = Some "anon-key" /\
  Headers_get (headers (Sample.request_with "")) "Authorization" = Some "" /\
  handle Permissive (Some Sample.args)
    (Sample.world Sample.env_unset Sample.server_accepting)
    (Sample.request_with "")
    (Sample.world Sample.env_unset Sample.server_accepting) =
  (ErrorResponse 401 (Some "Authorization header is missing"),
   Sample.world Sample.env_unset Sample.server_accepting).
Proof. repeat split. Qed.

(** C3, amended.  Permissive guard, endpoint and access key resolved to
    non-empty strings, Authorization header present and not empty: the
    guard creates the client, looks the user up, and always succeeds with
    [{ supabase, user }], where [user] is whatever the server returned
    as [data.user], possibly [null]; the [error] of the response plays no
    part in the outcome. *)
Theorem permissive_passes_through (arg : option GuardArgs) (w0 : World)
    (request : Request) (w : World) (u k a : string) :
  endpoint_of arg (process_env w0) = Some u -> u <> "" ->
  access_key_of arg (process_env w0) = Some k -> k <> "" ->
  Headers_get (headers request) "Authorization" = Some a -> a <> "" ->
  let client := scoped_client u k (options_of arg) a in
  let resp := auth_server w client in
  handle Permissive arg w0 request w =
  (Resolved client (data_user resp),
   record_call (GetUser client resp)
     (record_call (CreateClient u k (merged_options (options_of arg) a)) w)).
Proof.
  intros Hu Hu' Hk Hk' Ha Ha' client resp.
  by rewrite (handle_accepts Permissive arg w0 request w u k a).
Qed.

(** A server that rejects the credential: the permissive guard still
    succeeds, with the client and a [null] user. *)
Lemma permissive_passes_through_witness :
  (handle Permissive (Some Sample.args)
     (Sample.world Sample.env_unset Sample.server_rejecting)
     (Sample.request_with "Bearer bad-token")
     (Sample.world Sample.env_unset Sample.server_rejecting)).1 =
  Resolved (scoped_client "https://x.test" "anon-key" None "Bearer bad-token") None.
Proof.
  rewrite (permissive_passes_through (Some Sample.args)
    (Sample.world Sample.env_unset Sample.server_rejecting)
    (Sample.request_with "Bearer bad-token")
    (Sample.world Sample.env_unset Sample.server_rejecting)
    "https://x.test" "anon-key" "Bearer bad-token"
    eq_refl ltac:(discriminate) eq_refl ltac:(discriminate)
    eq_refl ltac:(discriminate)).
  reflexivity.
Defined.

(** The outcome of the permissive guard is the same under two servers
    that return the same [data.user], whatever their [error]s. *)
Lemma permissive_ignores_error (arg : option GuardArgs) (w0 : World)
    (request : Request) (env : Env) (log : list Call)
    (server server' : SupabaseClient -> UserResponse) :
  (forall c, data_user (server c) = data_user (server' c)) ->
  (handle Permissive arg w0 request
     {| process_env := env; auth_server := server; calls := log |}).1 =
  (handle Permissive arg w0 request
     {| process_env := env; auth_server := server'; calls := log |}).1.
Proof.
  intros Hsame. rewrite !handle_hook.
  destruct (js_not (endpoint_of arg (process_env w0))) eqn:Hu.
  { by rewrite !hook_endpoint_unset. }
  destruct (js_not (access_key_of arg (process_env w0))) eqn:Hk.
  { by rewrite !hook_key_unset. }
  destruct (js_not (Headers_get (headers request) "Authorization")) eqn:Ha.
  { by rewrite !hook_header_missing. }
  apply js_not_false in Hu as (u & Hu & Hu').
  apply js_not_false in Hk as (k & Hk & Hk').
  apply js_not_false in Ha as (a & Ha & Ha').
  rewrite !(hook_accepts Permissive _ _ _ request _ u k a) by done.
  simpl. by rewrite Hsame.
Qed.

(** ** The header requirement *)

(** C4, as stated, fails: on a guard whose endpoint is not resolved a
    request without Authorization header is rejected with 500 and the
    endpoint message, not with 401; the configuration is checked first. *)
Lemma missing_header_on_unconfigured_guard :
  Headers_get (headers Sample.request_bare) "Authorization" = None /\
  handle Strict None (Sample.world Sample.env_unset Sample.server_accepting)
    Sample.request_bare
    (Sample.world Sample.env_unset Sample.server_accepting) =
  (ErrorResponse 500 (Some "SUPABASE_URL is not set"),
   Sample.world Sample.env_unset Sample.server_accepting) /\
  handle Permissive None (Sample.world Sample.env_unset Sample.server_accepting)
    Sample.request_bare
    (Sample.world Sample.env_unset Sample.server_accepting) =
  (ErrorResponse 500 (Some "SUPABASE_URL is not set"),
   Sample.world Sample.env_unset Sample.server_accepting).
Proof. repeat split. Qed.

(** C4, amended.  For both guards, when endpoint and access key are
    resolved (to non-empty strings), every request that carries no
    Authorization header is rejected with status 401 and the message
    "Authorization header is missing"; the permissive guard is no
    exception.  Nothing else is done for such a request. *)
Theorem missing_header_rejected (v : Variant) (arg : option GuardArgs)
    (w0 : World) (request : Request) (w : World) :
  js_not (endpoint_of arg (process_env w0)) = false ->
  js_not (access_key_of arg (process_env w0)) = false ->
  Headers_get (headers request) "Authorization" = None ->
  handle v arg w0 request w =
  (ErrorResponse 401 (Some "Authorization header is missing"), w).
Proof.
  intros Hu Hk Ha. rewrite handle_hook.
  apply hook_header_missing; [done | done | by rewrite Ha].
Qed.

Lemma missing_header_rejected_witness :
  handle Permissive (Some Sample.args)
    (Sample.world Sample.env_unset Sample.server_accepting)
    Sample.request_bare
    (Sample.world Sample.env_unset Sample.server_accepting) =
  (ErrorResponse 401 (Some "Authorization header is missing"),
   Sample.world Sample.env_unset Sample.server_accepting).
Proof.
  apply (missing_header_rejected Permissive (Some Sample.args)
           (Sample.world Sample.env_unset Sample.server_accepting)
           Sample.request_bare
           (Sample.world Sample.env_unset Sample.server_accepting));
    reflexivity.
Defined.

(** Whatever the configuration, a request whose Authorization value is
    empty is handled as the same guard handles a request without the
    header. *)
Lemma empty_like_missing (v : Variant) (arg : option GuardArgs) (w0 : World)
    (request request' : Request) (w : World) :
  Headers_get (headers request) "Authorization" = Some "" ->
  Headers_get (headers request') "Authorization" = None ->
  handle v arg w0 request w = handle v arg w0 request' w.
Proof.
  intros Ha Ha'. rewrite !handle_hook.
  destruct (js_not (endpoint_of arg (process_env w0))) eqn:Hu.
  { by rewrite !hook_endpoint_unset. }
  destruct (js_not (access_key_of arg (process_env w0))) eqn:Hk.
  { by rewrite !hook_key_unset. }
  rewrite !hook_header_missing; try done.
  - by rewrite Ha'.
  - by rewrite Ha.
Qed.

(** C9, as stated, fails: with the endpoint not resolved, a request with
    an empty Authorization value is rejected with 500, not with 401. *)
Lemma empty_authorization_on_unconfigured_guard :
  Headers_get (headers (Sample.request_with "")) "Authorization" = Some "" /\
  handle Strict None (Sample.world Sample.env_unset Sample.server_accepting)
    (Sample.request_with "")
    (Sample.world Sample.env_unset Sample.server_accepting) =
  (ErrorResponse 500 (Some "SUPABASE_URL is not set"),
   Sample.world Sample.env_unset Sample.server_accepting) /\
  handle Permissive None (Sample.world Sample.env_unset Sample.server_accepting)
    (Sample.request_with "")
    (Sample.world Sample.env_unset Sample.server_accepting) =
  (ErrorResponse 500 (Some "SUPABASE_URL is not set"),
   Sample.world Sample.env_unset Sample.server_accepting).
Proof. repeat split. Qed.

(** C9, amended.  For both guards, when endpoint and access key are
    resolved (to non-empty strings), a request whose Authorization header
    is present but empty is rejected with status 401 and the message
    "Authorization header is missing", exactly as the request without the
    header is, and no call is made: no client is created with an empty
    credential. *)
Theorem empty_authorization_as_missing (v : Variant) (arg : option GuardArgs)
    (w0 : World) (request : Request) (w : World) :
  js_not (endpoint_of arg (process_env w0)) = false ->
  js_not (access_key_of arg (process_env w0)) = false ->
  Headers_get (headers request) "Authorization" = Some "" ->
  handle v arg w0 request w =
  (ErrorResponse 401 (Some "Authorization header is missing"), w) /\
  handle v arg w0 request w = handle v arg w0 {| headers := [] |} w /\
  new_calls w (handle v arg w0 request w).2 = [].
Proof.
  intros Hu Hk Ha.
  assert (handle v arg w0 request w =
          (ErrorResponse 401 (Some "Authorization header is missing"), w)) as ->.
  { rewrite handle_hook. apply hook_header_missing; [done | done | by rewrite Ha]. }
  split; [reflexivity | split].
  - rewrite handle_hook. symmetry. by apply hook_header_missing.
  - apply new_calls_refl.
Qed.

Lemma empty_authorization_as_missing_witness :
  handle Strict (Some Sample.args)
    (Sample.world Sample.env_unset Sample.server_accepting)
    (Sample.request_with "")
    (Sample.world Sample.env_unset Sample.server_accepting) =
  (ErrorResponse 401 (Some "Authorization header is missing"),
   Sample.world Sample.env_unset Sample.server_accepting).
Proof.
  apply (empty_authorization_as_missing Strict (Some Sample.args)
           (Sample.world Sample.env_unset Sample.server_accepting)
           (Sample.request_with "")
           (Sample.world Sample.env_unset Sample.server_accepting));
    reflexivity.
Defined.

(** ** Configuration: arguments and environment *)

(** Handling a request never reads the environment: with another
    environment at request time the outcome and the calls are the same. *)
Lemma hook_env_irrelevant (v : Variant) (url key : option string)
    (o : option obj) (request : Request) (w : World) (env : Env) :
  resolve_hook v url key o request (set_env env w) =
  ((resolve_hook v url key o request w).1,
   set_env env (resolve_hook v url key o request w).2).
Proof.
  destruct (js_not url) eqn:Hu.
  { by rewrite !hook_endpoint_unset. }
  destruct (js_not key) eqn:Hk.
  { by rewrite !hook_key_unset. }
  destruct (js_not (Headers_get (headers request) "Authorization")) eqn:Ha.
  { by rewrite !hook_header_missing. }
  apply js_not_false in Hu as (u & Hu & Hu').
  apply js_not_false in Hk as (k & Hk & Hk').
  apply js_not_false in Ha as (a & Ha & Ha').
  rewrite !(hook_accepts v _ _ _ request _ u k a) by done.
  reflexivity.
Qed.

(** C7.  For both guards, construction always succeeds: it yields the
    hook closed over an endpoint [url] and an access key [key], and
    changes nothing.  An endpoint or key given in the argument is the one
    held, whatever the environment says; one that is omitted is taken from
    the environment; and when either ends up unset, every request to the
    guard is rejected, when it is handled, with status 500 and the "is not
    set" message of the first unset value. *)
Theorem config_precedence (v : Variant) (arg : option GuardArgs) (w0 : World) :
  exists url key : option string,
    guard v arg w0 = (resolve_hook v url key (options_of arg), w0) /\
    (forall x, supabase_url (default no_args arg) = Some x -> url = Some x) /\
    (supabase_url (default no_args arg) = None ->
     url = SUPABASE_URL (process_env w0)) /\
    (forall x, supabase_anon_key (default no_args arg) = Some x -> key = Some x) /\
    (supabase_anon_key (default no_args arg) = None ->
     key = SUPABASE_ANON_KEY (process_env w0)) /\
    (url = None \/ key = None ->
     forall request w,
       (guard v arg w0).1 request w =
       (ErrorResponse 500
          (Some (if js_not url then "SUPABASE_URL is not set"
                 else "SUPABASE_ANON_KEY is not set")), w)).
Proof.
  exists (endpoint_of arg (process_env w0)), (access_key_of arg (process_env w0)).
  split; [apply guard_constructs |].
  unfold endpoint_of, access_key_of, resolve.
  repeat split.
  - by intros x ->.
  - by intros ->.
  - by intros x ->.
  - by intros ->.
  - intros Hunset request w. rewrite guard_constructs. simpl.
    unfold endpoint_of, access_key_of, resolve.
    destruct (js_not _) eqn:Hu.
    + by apply hook_endpoint_unset.
    + apply hook_key_unset; [done |].
      destruct Hunset as [H | H]; rewrite H in *; [discriminate | reflexivity].
Qed.

(** The guard constructed without any argument in an empty environment:
    construction succeeds, every request gets the endpoint error. *)
Lemma config_precedence_witness :
  (guard Strict None (Sample.world Sample.env_unset Sample.server_accepting)).1
    (Sample.request_with "Bearer good-token")
    (Sample.world Sample.env_set Sample.server_accepting) =
  (ErrorResponse 500 (Some "SUPABASE_URL is not set"),
   Sample.world Sample.env_set Sample.server_accepting).
Proof.
  destruct (config_precedence Strict None
              (Sample.world Sample.env_unset Sample.server_accepting))
    as (url & key & Hg & _ & Hu & _ & _ & Hfail).
  specialize (Hu eq_refl). subst url.
  exact (Hfail (or_introl eq_refl) _ _).
Defined.

(** C8, as stated, fails: a guard constructed without arguments while
    the environment is empty keeps rejecting requests with the endpoint
    error after both variables have been set; the environment of the
    request's world is not read.  (A guard constructed after they were
    set accepts the same request.) *)
Lemma late_environment_not_observed :
  process_env (Sample.world Sample.env_set Sample.server_accepting) = Sample.env_set /\
  handle Strict None (Sample.world Sample.env_unset Sample.server_accepting)
    (Sample.request_with "Bearer good-token")
    (Sample.world Sample.env_set Sample.server_accepting) =
  (ErrorResponse 500 (Some "SUPABASE_URL is not set"),
   Sample.world Sample.env_set Sample.server_accepting) /\
  handle Permissive None (Sample.world Sample.env_unset Sample.server_accepting)
    (Sample.request_with "Bearer good-token")
    (Sample.world Sample.env_set Sample.server_accepting) =
  (ErrorResponse 500 (Some "SUPABASE_URL is not set"),
   Sample.world Sample.env_set Sample.server_accepting) /\
  (handle Strict None (Sample.world Sample.env_set Sample.server_accepting)
     (Sample.request_with "Bearer good-token")
     (Sample.world Sample.env_set Sample.server_accepting)).1 =
  Resolved
    (scoped_client "https://env.test" "env-anon-key" None "Bearer good-token")
    (Some {| user_id := "u1"; email := Some "a@b.com" |}).
Proof. repeat split. Qed.

(** C8, amended.  When endpoint or access key is not supplied at
    construction, [SUPABASE_URL] and [SUPABASE_ANON_KEY] are read when the
    guard is constructed, from the environment as it is then, and the
    values are held by the guard; handling a request does not read the
    environment, so that the outcome and the calls made are the same
    whatever the environment is at the time of the request. *)
Theorem environment_read_at_construction (v : Variant)
    (arg : option GuardArgs) (w0 : World) (request : Request) (w : World)
    (env : Env) :
  guard v arg w0 =
  (resolve_hook v
     (resolve (supabase_url (default no_args arg)) (SUPABASE_URL (process_env w0)))
     (resolve (supabase_anon_key (default no_args arg))
        (SUPABASE_ANON_KEY (process_env w0)))
     (options_of arg), w0) /\
  handle v arg w0 request (set_env env w) =
  ((handle v arg w0 request w).1, set_env env (handle v arg w0 request w).2).
Proof.
  split; [apply guard_constructs |].
  rewrite !handle_hook. apply hook_env_irrelevant.
Qed.

(** ** Empty strings given as arguments *)

(** C10, as stated, fails: with the access key given as the empty string
    and the endpoint not resolved, every request is rejected with 500 and
    the endpoint's message, not the key's, also while the environment
    holds a non-empty key; the endpoint is checked first. *)
Lemma empty_key_on_unresolved_endpoint :
  supabase_anon_key Sample.args_empty_key = Some "" /\
  SUPABASE_ANON_KEY Sample.env_key_only = Some "env-anon-key" /\
  handle Strict (Some Sample.args_empty_key)
    (Sample.world Sample.env_key_only Sample.server_accepting)
    (Sample.request_with "Bearer good-token")
    (Sample.world Sample.env_key_only Sample.server_accepting) =
  (ErrorResponse 500 (Some "SUPABASE_URL is not set"),
   Sample.world Sample.env_key_only Sample.server_accepting) /\
  handle Permissive (Some Sample.args_empty_key)
    (Sample.world Sample.env_key_only Sample.server_accepting)
    (Sample.request_with "Bearer good-token")
    (Sample.world Sample.env_key_only Sample.server_accepting) =
  (ErrorResponse 500 (Some "SUPABASE_URL is not set"),
   Sample.world Sample.env_key_only Sample.server_accepting).
Proof. repeat split. Qed.

(** C10, amended.  For both guards: an endpoint given at construction as
    the empty string is not replaced by the environment's value, and
    every request is rejected with 500 "SUPABASE_URL is not set"; an
    access key given as the empty string is not replaced either, and,
    when the endpoint is resolved to a non-empty string, every request is
    rejected with 500 "SUPABASE_ANON_KEY is not set".  This holds whatever
    the environment holds; the world is left as it was, so the empty
    value is never given to the client factory. *)
Theorem empty_argument_not_replaced (v : Variant) (args : GuardArgs)
    (w0 : World) (request : Request) (w : World) :
  (supabase_url args = Some "" ->
   handle v (Some args) w0 request w =
   (ErrorResponse 500 (Some "SUPABASE_URL is not set"), w)) /\
  (supabase_anon_key args = Some "" ->
   js_not (endpoint_of (Some args) (process_env w0)) = false ->
   handle v (Some args) w0 request w =
   (ErrorResponse 500 (Some "SUPABASE_ANON_KEY is not set"), w)).
Proof.
  rewrite handle_hook. unfold access_key_of. simpl. split.
  - intros Hu. apply hook_endpoint_unset.
    unfold endpoint_of. simpl. by rewrite Hu.
  - intros Hk Hu. apply hook_key_unset; [done |]. by rewrite Hk.
Qed.

(** Both given as empty strings while the environment holds non-empty
    values: the endpoint error; only the key given as the empty string,
    the endpoint taken from the environment: the key error, though the
    environment holds a key. *)
Lemma empty_argument_not_replaced_witness :
  handle Strict (Some Sample.args_empty)
    (Sample.world Sample.env_set Sample.server_accepting)
    (Sample.request_with "Bearer good-token")
    (Sample.world Sample.env_set Sample.server_accepting) =
  (ErrorResponse 500 (Some "SUPABASE_URL is not set"),
   Sample.world Sample.env_set Sample.server_accepting) /\
  handle Permissive (Some Sample.args_empty_key)
    (Sample.world Sample.env_set Sample.server_accepting)
    (Sample.request_with "Bearer good-token")
    (Sample.world Sample.env_set Sample.server_accepting) =
  (ErrorResponse 500 (Some "SUPABASE_ANON_KEY is not set"),
   Sample.world Sample.env_set Sample.server_accepting).
Proof.
  split.
  - exact (proj1 (empty_argument_not_replaced Strict Sample.args_empty
                    (Sample.world Sample.env_set Sample.server_accepting)
                    (Sample.request_with "Bearer good-token")
                    (Sample.world Sample.env_set Sample.server_accepting))
             eq_refl).
  - exact (proj2 (empty_argument_not_replaced Permissive Sample.args_empty_key
                    (Sample.world Sample.env_set Sample.server_accepting)
                    (Sample.request_with "Bearer good-token")
                    (Sample.world Sample.env_set Sample.server_accepting))
             eq_refl eq_refl).
Defined.

(** An access key given as the empty string, in every configuration:
    status 500, with the message of the first check that fails. *)
Lemma empty_key_always_500 (v : Variant) (args : GuardArgs)
    (w0 : World) (request : Request) (w : World) :
  supabase_anon_key args = Some "" ->
  handle v (Some args) w0 request w =
  (ErrorResponse 500
     (Some (if js_not (endpoint_of (Some args) (process_env w0))
            then "SUPABASE_URL is not set"
            else "SUPABASE_ANON_KEY is not set")), w).
Proof.
  intros Hk. rewrite handle_hook. destruct (js_not _) eqn:Hu.
  - by apply hook_endpoint_unset.
  - apply hook_key_unset; [done |]. unfold access_key_of. simpl. by rewrite Hk.
Qed.

(** ** The options given to the client factory *)

Lemma spread_options (o : option obj) (p : string) :
  spread (JObj <$> o) !! p = opt_get o p.
Proof. destruct o; simpl; [reflexivity | apply lookup_empty]. Qed.

Lemma merged_options_global (o : option obj) (a : string) :
  merged_options o a !! "global" =
  Some (JObj (<["headers" := JObj {["Authorization" := JStr a]}]>
                (spread (opt_get o "global")))).
Proof. unfold merged_options. apply lookup_insert_eq. Qed.

Lemma merged_options_other (o : option obj) (a p : string) :
  p <> "global" -> merged_options o a !! p = opt_get o p.
Proof.
  intros Hp. unfold merged_options.
  rewrite lookup_insert_ne by done. apply spread_options.
Qed.

(** Whatever the options given at construction, the [headers] object
    given to the factory has the one key [Authorization]. *)
Lemma only_authorization_header_passed (o : option obj) (a : string) :
  exists g hs,
    merged_options o a !! "global" = Some (JObj g) /\
    g !! "headers" = Some (JObj hs) /\
    hs !! "Authorization" = Some (JStr a) /\
    forall p, p <> "Authorization" -> hs !! p = None.
Proof.
  eexists _, _. split; [apply merged_options_global |].
  split; [apply lookup_insert_eq |].
  split; [apply lookup_singleton_eq |].
  intros p Hp. by apply lookup_singleton_ne.
Qed.

(** C5 (the code departs from the claim).  The guard is constructed with
    options whose [global.headers] holds ["X-Client-Info"] next to an
    [Authorization]; for a request with its own credential, the options
    given to [createClient] have under [global.headers] the request's
    [Authorization] alone: ["X-Client-Info"] is gone, while [db] and
    [global.fetch] are still there. *)
Theorem custom_header_dropped :
  Sample.custom_headers !! "X-Client-Info" = Some (JStr "my-app") /\
  new_calls (Sample.world Sample.env_unset Sample.server_accepting)
    (handle Strict (Some Sample.args_with_options)
       (Sample.world Sample.env_unset Sample.server_accepting)
       (Sample.request_with "Bearer request-token")
       (Sample.world Sample.env_unset Sample.server_accepting)).2 !! 0%nat =
  Some (CreateClient "https://x.test" "anon-key"
          {[ "db" := JObj {[ "schema" := JStr "public" ]};
             "global" :=
               JObj {[ "fetch" := JFun 0;
                       "headers" :=
                         JObj {[ "Authorization" := JStr "Bearer request-token" ]} ]} ]}) /\
  ({[ "Authorization" := JStr "Bearer request-token" ]} : obj) !! "X-Client-Info" = None.
Proof. repeat split. Qed.

(** C6.  For both guards and every request that passes the three checks,
    [createClient] is called once, with the resolved endpoint and key and
    with options [opts] such that: [opts.global.headers] is exactly
    [{ Authorization }] with the value of the request's header, whatever
    [Authorization] the construction-time options carried; every property
    of the options other than [global] is as given at construction; and
    every property of [opts.global] other than [headers] is as in the
    [global] given at construction. *)
Theorem authorization_overridden_rest_forwarded (v : Variant)
    (arg : option GuardArgs) (w0 : World) (request : Request) (w : World) :
  first_failure (endpoint_of arg (process_env w0))
    (access_key_of arg (process_env w0))
    (Headers_get (headers request) "Authorization") = None ->
  exists (u k a : string) (opts g : obj) (resp : UserResponse),
    endpoint_of arg (process_env w0) = Some u /\
    access_key_of arg (process_env w0) = Some k /\
    Headers_get (headers request) "Authorization" = Some a /\
    new_calls w (handle v arg w0 request w).2 =
      [CreateClient u k opts;
       GetUser {| supabaseUrl := u; supabaseKey := k; client_options := opts |} resp] /\
    opts !! "global" = Some (JObj g) /\
    g !! "headers" = Some (JObj {[ "Authorization" := JStr a ]}) /\
    (forall p, p <> "global" -> opts !! p = opt_get (options_of arg) p) /\
    (forall p, p <> "headers" ->
       g !! p = spread (opt_get (options_of arg) "global") !! p).
Proof.
  unfold first_failure, check_sequence. simpl.
  destruct (js_not (endpoint_of _ _)) eqn:Hu; [discriminate |].
  destruct (js_not (access_key_of _ _)) eqn:Hk; [discriminate |].
  destruct (js_not (Headers_get _ _)) eqn:Ha; [discriminate |].
  intros _.
  apply js_not_false in Hu as (u & Hu & Hu').
  apply js_not_false in Hk as (k & Hk & Hk').
  apply js_not_false in Ha as (a & Ha & Ha').
  exists u, k, a, (merged_options (options_of arg) a).
  eexists _, _.
  split; [done |]. split; [done |]. split; [done |].
  split.
  { rewrite (handle_accepts v arg w0 request w u k a) by done.
    simpl. apply new_calls_two. }
  split; [apply merged_options_global |].
  split; [apply lookup_insert_eq |].
  split.
  - intros p Hp. by apply merged_options_other.
  - intros p Hp. by rewrite lookup_insert_ne.
Qed.

(** The options of the sample, which carry an [Authorization] of their
    own: the factory gets the request's credential, and [db] and
    [global.fetch] as they were given. *)
Lemma authorization_overridden_rest_forwarded_witness :
  exists (opts g : obj),
    new_calls (Sample.world Sample.env_unset Sample.server_accepting)
      (handle Permissive (Some Sample.args_with_options)
         (Sample.world Sample.env_unset Sample.server_accepting)
         (Sample.request_with "Bearer request-token")
         (Sample.world Sample.env_unset Sample.server_accepting)).2 !! 0%nat =
    Some (CreateClient "https://x.test" "anon-key" opts) /\
    opts !! "global" = Some (JObj g) /\
    g !! "headers" = Some (JObj {[ "Authorization" := JStr "Bearer request-token" ]}) /\
    g !! "fetch" = Some (JFun 0) /\
    opts !! "db" = Some (JObj {[ "schema" := JStr "public" ]}).
Proof.
  destruct (authorization_overridden_rest_forwarded Permissive
              (Some Sample.args_with_options)
              (Sample.world Sample.env_unset Sample.server_accepting)
              (Sample.request_with "Bearer request-token")
              (Sample.world Sample.env_unset Sample.server_accepting)
              eq_refl)
    as (u & k & a & opts & g & resp & Hu & Hk & Ha & Hcalls & Hg & Hh & Ho & Hgl).
  injection Hu as <-. injection Hk as <-. injection Ha as <-.
  exists opts, g. rewrite Hcalls.
  split; [reflexivity |]. split; [exact Hg |]. split; [exact Hh |].
  split.
  - rewrite Hgl by discriminate. reflexivity.
  - rewrite Ho by discriminate. reflexivity.
Defined.

(** ** The run of a guard, in full *)

(** Every run is one of two: a check fails, the table's error is returned
    and the world is untouched; or the three checks pass, the client is
    created and looked up, and the outcome is read off the response. *)
Lemma handle_cases (v : Variant) (arg : option GuardArgs) (w0 : World)
    (request : Request) (w : World) :
  (exists c,
     first_failure (endpoint_of arg (process_env w0))
       (access_key_of arg (process_env w0))
       (Headers_get (headers request) "Authorization") = Some c /\
     handle v arg w0 request w =
     (ErrorResponse (rejection c).1 (Some (rejection c).2), w)) \/
  (exists u k a,
     first_failure (endpoint_of arg (process_env w0))
       (access_key_of arg (process_env w0))
       (Headers_get (headers request) "Authorization") = None /\
     endpoint_of arg (process_env w0) = Some u /\ u <> "" /\
     access_key_of arg (process_env w0) = Some k /\ k <> "" /\
     Headers_get (headers request) "Authorization" = Some a /\ a <> "" /\
     handle v arg w0 request w =
     (match v, error (auth_server w (scoped_client u k (options_of arg) a)) with
      | Strict, Some _ => ErrorResponse 401 None
      | _, _ =>
          Resolved (scoped_client u k (options_of arg) a)
            (data_user (auth_server w (scoped_client u k (options_of arg) a)))
      end,
      record_call
        (GetUser (scoped_client u k (options_of arg) a)
           (auth_server w (scoped_client u k (options_of arg) a)))
        (record_call (CreateClient u k (merged_options (options_of arg) a)) w))).
Proof.
  rewrite handle_hook. unfold first_failure, check_sequence. simpl.
  destruct (js_not (endpoint_of _ _)) eqn:Hu.
  { left. exists EndpointCheck. split; [done | by apply hook_endpoint_unset]. }
  destruct (js_not (access_key_of _ _)) eqn:Hk.
  { left. exists AccessKeyCheck. split; [done | by apply hook_key_unset]. }
  destruct (js_not (Headers_get _ _)) eqn:Ha.
  { left. exists AuthorizationCheck. split; [done | by apply hook_header_missing]. }
  right.
  apply js_not_false in Hu as (u & Hu & Hu').
  apply js_not_false in Hk as (k & Hk & Hk').
  apply js_not_false in Ha as (a & Ha & Ha').
  exists u, k, a. repeat (split; [done |]).
  by apply hook_accepts.
Qed.

(** X1.  The strict guard accepts: with endpoint and key resolved to
    non-empty strings and a non-empty Authorization header, when the
    lookup on the client built for the request comes back without error,
    the request gets [{ supabase, user }] with that very client and the
    [data.user] of the response; the client was created once and looked
    up once. *)
Theorem strict_accepts_valid_credential (arg : option GuardArgs) (w0 : World)
    (request : Request) (w : World) (u k a : string) :
  endpoint_of arg (process_env w0) = Some u -> u <> "" ->
  access_key_of arg (process_env w0) = Some k -> k <> "" ->
  Headers_get (headers request) "Authorization" = Some a -> a <> "" ->
  error (auth_server w (scoped_client u k (options_of arg) a)) = None ->
  let client := scoped_client u k (options_of arg) a in
  handle Strict arg w0 request w =
  (Resolved client (data_user (auth_server w client)),
   record_call (GetUser client (auth_server w client))
     (record_call (CreateClient u k (merged_options (options_of arg) a)) w)).
Proof.
  intros Hu Hu' Hk Hk' Ha Ha' Herr client.
  rewrite (handle_accepts Strict arg w0 request w u k a) by done.
  simpl. fold client. unfold client at 1. by rewrite Herr.
Qed.

(** The spec's example: the user behind the token reaches the context. *)
Lemma strict_accepts_valid_credential_witness :
  (handle Strict (Some Sample.args)
     (Sample.world Sample.env_unset Sample.server_accepting)
     (Sample.request_with "Bearer good-token")
     (Sample.world Sample.env_unset Sample.server_accepting)).1 =
  Resolved (scoped_client "https://x.test" "anon-key" None "Bearer good-token")
    (Some {| user_id := "u1"; email := Some "a@b.com" |}).
Proof.
  rewrite (strict_accepts_valid_credential (Some Sample.args)
    (Sample.world Sample.env_unset Sample.server_accepting)
    (Sample.request_with "Bearer good-token")
    (Sample.world Sample.env_unset Sample.server_accepting)
    "https://x.test" "anon-key" "Bearer good-token"
    eq_refl ltac:(discriminate) eq_refl ltac:(discriminate)
    eq_refl ltac:(discriminate) eq_refl).
  reflexivity.
Defined.

(** X2.  No context without the checks: when a guard leaves
    [{ supabase, user }] for a request, endpoint and key were resolved to
    non-empty strings, the request carried a non-empty Authorization
    value, the client is the one made of these (with the merged options),
    the user is the [data.user] the server gave for that client, and, for
    the strict guard, the server reported no error. *)
Theorem resolved_only_after_checks (v : Variant) (arg : option GuardArgs)
    (w0 : World) (request : Request) (w : World)
    (client : SupabaseClient) (usr : option User) :
  (handle v arg w0 request w).1 = Resolved client usr ->
  exists u k a,
    endpoint_of arg (process_env w0) = Some u /\ u <> "" /\
    access_key_of arg (process_env w0) = Some k /\ k <> "" /\
    Headers_get (headers request) "Authorization" = Some a /\ a <> "" /\
    client = scoped_client u k (options_of arg) a /\
    usr = data_user (auth_server w client) /\
    (v = Strict -> error (auth_server w client) = None).
Proof.
  destruct (handle_cases v arg w0 request w)
    as [(c & _ & ->) | (u & k & a & _ & Hu & Hu' & Hk & Hk' & Ha & Ha' & ->)].
  { discriminate. }
  simpl. intros Hres. exists u, k, a. repeat (split; [done |]).
  destruct v, (error (auth_server w (scoped_client u k (options_of arg) a))) eqn:Herr;
    try discriminate; injection Hres as <- <-; repeat split; try done.
Qed.

Lemma resolved_only_after_checks_witness :
  exists a,
    Headers_get (headers (Sample.request_with "Bearer good-token")) "Authorization"
      = Some a /\ a <> "".
Proof.
  destruct (resolved_only_after_checks Permissive (Some Sample.args)
              (Sample.world Sample.env_unset Sample.server_rejecting)
              (Sample.request_with "Bearer good-token")
              (Sample.world Sample.env_unset Sample.server_rejecting)
              (scoped_client "https://x.test" "anon-key" None "Bearer good-token")
              None eq_refl)
    as (u & k & a & _ & _ & _ & _ & Ha & Ha' & _).
  exists a. split; assumption.
Defined.


(** X4.  What a request costs.  Handling a request never changes the
    process environment or the server, and only appends to the calls.
    Either a check fails and no call is made, or the checks pass and
    exactly two calls are made: one [createClient], then one [getUser] on
    the client just created. *)
Theorem calls_per_request (v : Variant) (arg : option GuardArgs)
    (w0 : World) (request : Request) (w : World) :
  process_env (handle v arg w0 request w).2 = process_env w /\
  auth_server (handle v arg w0 request w).2 = auth_server w /\
  calls (handle v arg w0 request w).2 =
    (calls w ++ new_calls w (handle v arg w0 request w).2)%list /\
  ((exists c,
      first_failure (endpoint_of arg (process_env w0))
        (access_key_of arg (process_env w0))
        (Headers_get (headers request) "Authorization") = Some c /\
      new_calls w (handle v arg w0 request w).2 = []) \/
   (exists client,
      first_failure (endpoint_of arg (process_env w0))
        (access_key_of arg (process_env w0))
        (Headers_get (headers request) "Authorization") = None /\
      new_calls w (handle v arg w0 request w).2 =
        [CreateClient (supabaseUrl client) (supabaseKey client) (client_options client);
         GetUser client (auth_server w client)])).
Proof.
  destruct (handle_cases v arg w0 request w)
    as [(c & Hc & ->) | (u & k & a & Hnone & _ & _ & _ & _ & _ & _ & ->)].
  - simpl. rewrite new_calls_refl, app_nil_r.
    repeat (split; [done |]). left. by exists c.
  - simpl. rewrite new_calls_two, <- app_assoc.
    repeat (split; [done |]). right.
    by exists (scoped_client u k (options_of arg) a).
Qed.

(** The outcome of a run and the calls it makes depend on the world
    through the server alone. *)
Lemma handle_server_only (v : Variant) (arg : option GuardArgs) (w0 : World)
    (request : Request) (w w' : World) :
  auth_server w = auth_server w' ->
  (handle v arg w0 request w).1 = (handle v arg w0 request w').1 /\
  new_calls w (handle v arg w0 request w).2 =
  new_calls w' (handle v arg w0 request w').2.
Proof.
  intros Hs.
  destruct (handle_cases v arg w0 request w)
    as [(c & Hc & ->) | (u & k & a & Hnone & Hu & Hu' & Hk & Hk' & Ha & Ha' & ->)].
  - destruct (handle_cases v arg w0 request w')
      as [(c' & Hc' & ->) | (u & k & a & Hnone & _)].
    + rewrite Hc in Hc'. injection Hc' as <-. simpl.
      by rewrite !new_calls_refl.
    + rewrite Hc in Hnone. discriminate.
  - rewrite (handle_accepts v arg w0 request w' u k a) by done.
    simpl. rewrite !new_calls_two, Hs. done.
Qed.

(** X5.  Requests do not interfere.  A request handled after another one
    (by the same guard or by a different one) has the outcome, and causes
    the calls, it would have had without the earlier request: nothing of
    a request, neither its client nor its user, is kept for the next. *)
Theorem requests_do_not_interfere
    (v1 v2 : Variant) (arg1 arg2 : option GuardArgs) (w1 w2 : World)
    (r1 r2 : Request) (w : World) :
  (handle v2 arg2 w2 r2 (handle v1 arg1 w1 r1 w).2).1 =
  (handle v2 arg2 w2 r2 w).1 /\
  new_calls (handle v1 arg1 w1 r1 w).2
    (handle v2 arg2 w2 r2 (handle v1 arg1 w1 r1 w).2).2 =
  new_calls w (handle v2 arg2 w2 r2 w).2.
Proof.
  apply handle_server_only.
  destruct (handle_cases v1 arg1 w1 r1 w)
    as [(c & _ & ->) | (u & k & a & _ & _ & _ & _ & _ & _ & _ & ->)]; reflexivity.
Qed.

(** X6.  The answers a guard can give.  An error response is 500 with
    one of the two "is not set" messages, or 401 with "Authorization
    header is missing", or, from the strict guard only, 401 without a
    message; there is no other status and no other message. *)
Theorem outcome_statuses (v : Variant) (arg : option GuardArgs) (w0 : World)
    (request : Request) (w : World) (status : Z) (message : option string) :
  (handle v arg w0 request w).1 = ErrorResponse status message ->
  (status = 500 /\ message = Some "SUPABASE_URL is not set") \/
  (status = 500 /\ message = Some "SUPABASE_ANON_KEY is not set") \/
  (status = 401 /\ message = Some "Authorization header is missing") \/
  (status = 401 /\ message = None /\ v = Strict).
Proof.
  destruct (handle_cases v arg w0 request w)
    as [(c & _ & ->) | (u & k & a & _ & _ & _ & _ & _ & _ & _ & ->)]; simpl.
  - intros [= <- <-]. destruct c; simpl; tauto.
  - destruct v; [| discriminate].
    destruct (error (auth_server w (scoped_client u k (options_of arg) a)));
      [| discriminate].
    intros [= <- <-]. tauto.
Qed.

Lemma outcome_statuses_witness :
  (500 = 500 /\ Some "SUPABASE_ANON_KEY is not set" = Some "SUPABASE_URL is not set") \/
  (500 = 500 /\ Some "SUPABASE_ANON_KEY is not set" = Some "SUPABASE_ANON_KEY is not set") \/
  (500 = 401 /\ Some "SUPABASE_ANON_KEY is not set" = Some "Authorization header is missing") \/
  (500 = 401 /\ Some "SUPABASE_ANON_KEY is not set" = None /\ Permissive = Strict).
Proof.
  apply (outcome_statuses Permissive (Some Sample.args_empty_key)
           (Sample.world Sample.env_set Sample.server_accepting)
           Sample.request_bare
           (Sample.world Sample.env_set Sample.server_accepting)).
  reflexivity.
Defined.

(** X8.  Merging composes: options that are themselves the result of a
    merge with one credential, merged with a second credential, are the
    original options merged with the second; the first credential leaves
    no trace and nothing accumulates. *)
Theorem merged_options_last_wins (o : option obj) (a b : string) :
  merged_options (Some (merged_options o a)) b = merged_options o b.
Proof.
  unfold merged_options at 1. simpl.
  rewrite merged_options_global. simpl.
  unfold merged_options.
  by rewrite !insert_insert_eq.
Qed.
